(** * Train tracker page: the state synchronisation core

    A shallow embedding of [frontend/pages/train-tracker.tsx]: the React
    component [TrainTracker], its six state cells, the handlers
    [fetchAllTrains], [searchTrains], [selectTrain], the pure helper
    [getStatusColor], and the event loop that runs them.

    Conventions of the embedding.
    - A handler is a computation in the monad [Handler]: it threads the
      component's state cells and the console, and may throw.  A state
      setter that ran before a throw keeps its effect, as in JavaScript.
    - An [async] handler is cut at its [await]s.  What the awaited promise
      settles to is an argument ([Reply]); the clock read by [new Date()]
      is an argument too.
    - A handler closes over the state cells of the render that created it.
      What a handler reads from its closure is an explicit argument, named
      as the variable it reads; what it writes goes through the setters to
      the live state. *)

From Stdlib Require Import ZArith QArith List String Ascii Bool Lia.
Import ListNotations.

Local Open Scope string_scope.

(** ** JavaScript strings and values *)

Module Js.

(** Strings are taken over the code points U+0000..U+00FF, one per
    character.  [toLowerCase] on that range maps A..Z and the accented
    capitals U+00C0..U+00DE (except the multiplication sign U+00D7) to the
    code point 32 above. *)
Definition lower_char (c : ascii) : ascii :=
  let n := N_of_ascii c in
  if ((65 <=? n) && (n <=? 90) ||
      (192 <=? n) && (n <=? 222) && negb (n =? 215))%N
  then ascii_of_N (n + 32) else c.

Fixpoint toLowerCase (s : string) : string :=
  match s with
  | EmptyString => EmptyString
  | String c rest => String (lower_char c) (toLowerCase rest)
  end.

(** White space and line terminators of the range: TAB, LF, VT, FF, CR,
    SPACE and NO-BREAK SPACE. *)
Definition is_space (c : ascii) : bool :=
  let n := N_of_ascii c in
  ((9 <=? n) && (n <=? 13) || (n =? 32) || (n =? 160))%N.

Fixpoint trimStart (s : string) : string :=
  match s with
  | EmptyString => EmptyString
  | String c rest => if is_space c then trimStart rest else s
  end.

Fixpoint trimEnd (s : string) : string :=
  match s with
  | EmptyString => EmptyString
  | String c rest =>
      match trimEnd rest with
      | EmptyString => if is_space c then EmptyString else String c EmptyString
      | kept => String c kept
      end
  end.

Definition trim (s : string) : string := trimEnd (trimStart s).

(** The empty string is the only falsy string. *)
Definition truthy_string (s : string) : bool := negb (s =? "").

(** What a property of a parsed JSON body can evaluate to.  [A] is the
    declared element type of an array.  Only the shape is inspected by
    the page, so an object that is not an array carries no contents, and
    of a number only whether it is zero matters (integers stand for all). *)
Inductive Value (A : Type) : Type :=
| Undefined                 (* the property is absent *)
| Null
| Boolean (b : bool)
| Number (n : Z)
| Str (s : string)
| Object
| Array (items : list A).

Arguments Undefined {A}.
Arguments Null {A}.
Arguments Boolean {A} b.
Arguments Number {A} n.
Arguments Str {A} s.
Arguments Object {A}.
Arguments Array {A} items.

(** ToBoolean. *)
Definition truthy {A} (v : Value A) : bool :=
  match v with
  | Undefined | Null => false
  | Boolean b => b
  | Number n => negb (n =? 0)%Z
  | Str s => truthy_string s
  | Object | Array _ => true
  end.

(** [v || []]. *)
Definition or_empty {A} (v : Value A) : Value A :=
  if truthy v then v else Array [].

(** What a handler can throw. *)
Inductive Exception : Type :=
| TypeError        (* property read on null/undefined, call of a non-function *)
| SyntaxError      (* the body is not JSON *)
| NetworkError.    (* the request promise rejects *)

End Js.

(** ** The handler monad: state, console, exceptions *)

Module Effect.

Inductive Completion (A : Type) : Type :=
| Normal (a : A)
| Throw (e : Js.Exception).
Arguments Normal {A} a.
Arguments Throw {A} e.

Section Monad.
(** [W] is what handlers act upon. *)
Variable W : Type.

Definition M (A : Type) : Type := W -> Completion A * W.

Definition ret {A} (a : A) : M A := fun w => (Normal a, w).

Definition bind {A B} (c : M A) (k : A -> M B) : M B :=
  fun w =>
    match c w with
    | (Normal a, w') => k a w'
    | (Throw e, w') => (Throw e, w')
    end.

Definition throw {A} (e : Js.Exception) : M A := fun w => (Throw e, w).

(** [try { body } catch (err) { handler err }]. *)
Definition try_catch {A} (body : M A) (handler : Js.Exception -> M A) : M A :=
  fun w =>
    match body w with
    | (Normal a, w') => (Normal a, w')
    | (Throw e, w') => handler e w'
    end.

(** [try { body } finally { final }].  A throw in [final] replaces the
    completion of [body]. *)
Definition try_finally {A} (body : M A) (final : M unit) : M A :=
  fun w =>
    match body w with
    | (r, w') =>
        match final w' with
        | (Normal _, w'') => (r, w'')
        | (Throw e, w'') => (Throw e, w'')
        end
    end.

(** A write to [W]. *)
Definition update (f : W -> W) : M unit := fun w => (Normal tt, f w).

(** The state a computation leaves. *)
Definition exec {A} (c : M A) (w : W) : W := snd (c w).
Definition result {A} (c : M A) (w : W) : Completion A := fst (c w).
End Monad.

Arguments ret {W A} a.
Arguments bind {W A B} c k.
Arguments throw {W A} e.
Arguments try_catch {W A} body handler.
Arguments try_finally {W A} body final.
Arguments update {W} f.
Arguments exec {W A} c w.
Arguments result {W A} c w.

End Effect.

Declare Scope handler_scope.
Delimit Scope handler_scope with handler.
Notation "x <- c ;; k" := (Effect.bind c (fun x => k))
  (at level 61, c at next level, right associativity) : handler_scope.
Notation "c ;; k" := (Effect.bind c (fun _ => k))
  (at level 61, right associativity) : handler_scope.


(** ** The component *)

Module TrainTracker.

Import Effect.
Local Open Scope handler_scope.

(** [number]: the page only carries these values around and prints them.
    [trainId] is the one number it compares; identities are integers. *)
Definition number : Type := Q.
Definition Date : Type := Z.    (* milliseconds since the epoch *)

Record Stop : Type := {
  station : string;
  lat : number;
  lon : number;
  time : string;
  distance : number
}.

(** [interface TrainPosition]. *)
Record TrainPosition : Type := {
  trainId : Z;
  trainName : string;
  trainNumber : string;
  currentLat : number;
  currentLon : number;
  speed : number;
  heading : number;
  lastStation : string;
  nextStation : string;
  distanceToNext : number;
  totalDistance : number;
  distanceCovered : number;
  delay : number;
  status : string;
  estimatedArrival : string;
  progress : number;
  route : list Stop
}.

(** The six [useState] cells.  [allTrains] is declared [TrainPosition[]],
    but [setAllTrains] is handed a property of an untyped body, so at run
    time the cell holds whatever that property was. *)
Record State : Type := {
  searchQuery : string;
  selectedTrain : option TrainPosition;
  allTrains : Js.Value TrainPosition;
  loading : bool;
  error : option string;
  lastUpdated : option Date
}.

(** The state of the first render: the arguments of the [useState] calls. *)
Definition initialState : State := {|
  searchQuery := "";
  selectedTrain := None;
  allTrains := Js.Array [];
  loading := false;
  error := None;
  lastUpdated := None
|}.

(** What a handler acts upon: the state cells and the browser console
    (newest line first). *)
Record World : Type := {
  ui : State;
  console : list (string * Js.Exception)
}.

Definition Handler : Type -> Type := M World.

Definition on_ui (f : State -> State) : Handler unit :=
  update (fun w => {| ui := f (ui w); console := console w |}).

Definition setSearchQuery (q : string) : Handler unit :=
  on_ui (fun s => {| searchQuery := q; selectedTrain := selectedTrain s;
                     allTrains := allTrains s; loading := loading s;
                     error := error s; lastUpdated := lastUpdated s |}).

Definition setSelectedTrain (t : option TrainPosition) : Handler unit :=
  on_ui (fun s => {| searchQuery := searchQuery s; selectedTrain := t;
                     allTrains := allTrains s; loading := loading s;
                     error := error s; lastUpdated := lastUpdated s |}).

Definition setAllTrains (v : Js.Value TrainPosition) : Handler unit :=
  on_ui (fun s => {| searchQuery := searchQuery s; selectedTrain := selectedTrain s;
                     allTrains := v; loading := loading s;
                     error := error s; lastUpdated := lastUpdated s |}).

Definition setLoading (b : bool) : Handler unit :=
  on_ui (fun s => {| searchQuery := searchQuery s; selectedTrain := selectedTrain s;
                     allTrains := allTrains s; loading := b;
                     error := error s; lastUpdated := lastUpdated s |}).

Definition setError (e : option string) : Handler unit :=
  on_ui (fun s => {| searchQuery := searchQuery s; selectedTrain := selectedTrain s;
                     allTrains := allTrains s; loading := loading s;
                     error := e; lastUpdated := lastUpdated s |}).

Definition setLastUpdated (d : Date) : Handler unit :=
  on_ui (fun s => {| searchQuery := searchQuery s; selectedTrain := selectedTrain s;
                     allTrains := allTrains s; loading := loading s;
                     error := error s; lastUpdated := Some d |}).

(** [console.error(msg, err)]. *)
Definition console_error (msg : string) (err : Js.Exception) : Handler unit :=
  update (fun w => {| ui := ui w; console := (msg, err) :: console w |}).

(** *** The transport, as the handlers see it *)

(** A parsed body [data]: the literal [null], on which every property read
    throws, or any other value, of which the page reads one property. *)
Inductive Parsed (P : Type) : Type :=
| NullBody
| Body (property : P).
Arguments NullBody {P}.
Arguments Body {P} property.

(** [response]: its [ok] flag and what [response.json()] settles to
    ([None]: the body is not JSON and the promise rejects). *)
Record Response (P : Type) : Type := {
  ok : bool;
  json_body : option (Parsed P)
}.
Arguments ok {P} r.
Arguments json_body {P} r.

(** What the promise returned by [apiGet] settles to. *)
Inductive Reply (P : Type) : Type :=
| Rejects
| Resolves (response : Response P).
Arguments Rejects {P}.
Arguments Resolves {P} response.

Definition await {P} (reply : Reply P) : Handler (Response P) :=
  match reply with
  | Rejects => throw Js.NetworkError
  | Resolves response => ret response
  end.

(** [await response.json()]. *)
Definition json {P} (response : Response P) : Handler (Parsed P) :=
  match json_body response with
  | Some data => ret data
  | None => throw Js.SyntaxError
  end.

(** [data.<property>]. *)
Definition property_of {P} (data : Parsed P) : Handler P :=
  match data with
  | NullBody => throw Js.TypeError
  | Body p => ret p
  end.

(** [v.find(pred)]: only an array has a [find] to call. *)
Definition find_in {A} (pred : A -> bool) (v : Js.Value A) : Handler (option A) :=
  match v with
  | Js.Array items => ret (List.find pred items)
  | _ => throw Js.TypeError
  end.

(** The [results] property of a search body: absent or [null] ([None]), or
    an array.  Other shapes are not part of the model. *)
Definition Results : Type := option (list TrainPosition).

(** [results.length] / [results\[0\]]: a property read on [undefined] throws. *)
Definition defined {A} (v : option A) : Handler A :=
  match v with
  | Some a => ret a
  | None => throw Js.TypeError
  end.

(** *** Replies by shape *)

(** A success response whose body is [{ trains: items }]. *)
Definition fleet (items : list TrainPosition) : Reply (Js.Value TrainPosition) :=
  Resolves {| ok := true; json_body := Some (Body (Js.Array items)) |}.

(** A success response whose body is not [null] and has [v] (possibly
    absent) as its [trains]. *)
Definition fleet_body (v : Js.Value TrainPosition) : Reply (Js.Value TrainPosition) :=
  Resolves {| ok := true; json_body := Some (Body v) |}.

(** A success response whose body is [{ results: items }]. *)
Definition found (items : list TrainPosition) : Reply Results :=
  Resolves {| ok := true; json_body := Some (Body (Some items)) |}.

(** A response with a non-success status; its body is not read. *)
Definition refused {P} : Reply P :=
  Resolves {| ok := false; json_body := None |}.

(** *** The handlers *)

(** [fetchAllTrains], from the point where [apiGet] settles: lines 48-67.
    [selectedTrain] is the cell as the handler's closure holds it; [now] is
    what [new Date()] reads. *)
Definition fetchAllTrains (selectedTrain : option TrainPosition)
    (reply : Reply (Js.Value TrainPosition)) (now : Date) : Handler unit :=
  try_catch
    (response <- await reply ;;
     if ok response then
       data <- json response ;;
       trains <- property_of data ;;
       setAllTrains (Js.or_empty trains) ;;
       setLastUpdated now ;;
       match selectedTrain with
       | Some selected =>
           updated <- find_in (fun t => trainId t =? trainId selected)%Z trains ;;
           match updated with
           | Some t => setSelectedTrain (Some t)
           | None => ret tt
           end
       | None => ret tt
       end
     else ret tt)
    (fun err => console_error "Error fetching trains:" err).

(** [searchTrains] up to its first [await]: lines 69-76.  [searchQuery] is
    the cell as the closure holds it.  Returns whether a request was sent. *)
Definition searchTrains_send (searchQuery : string) : Handler bool :=
  if negb (Js.truthy_string (Js.trim searchQuery)) then ret false
  else
    setLoading true ;;
    setError None ;;
    ret true.

(** [searchTrains] from the point where [apiGet] settles: lines 75-92. *)
Definition searchTrains_settle (reply : Reply Results) : Handler unit :=
  try_finally
    (try_catch
       (response <- await reply ;;
        if ok response then
          data <- json response ;;
          property <- property_of data ;;
          results <- defined property ;;
          match results with
          | first :: _ => setSelectedTrain (Some first)
          | [] => setError (Some "No trains found matching your search")
          end
        else setError (Some "Search failed. Please try again."))
       (fun _ => setError (Some "Search error. Please check your connection.")))
    (setLoading false).

(** [searchTrains] run with nothing else scheduled in between. *)
Definition searchTrains (searchQuery : string) (reply : Reply Results) : Handler unit :=
  sent <- searchTrains_send searchQuery ;;
  if sent then searchTrains_settle reply else ret tt.

(** [selectTrain]: lines 95-98. *)
Definition selectTrain (train : TrainPosition) : Handler unit :=
  setSelectedTrain (Some train) ;;
  setError None.

(** [getStatusColor]: lines 100-111.  A [switch] compares with [===], case
    by case in order. *)
Definition getStatusColor (status : string) : string :=
  let s := Js.toLowerCase status in
  if (s =? "proceed") || (s =? "on time") then "text-green-600 bg-green-50"
  else if (s =? "warning") || (s =? "delayed") then "text-amber-600 bg-amber-50"
  else if (s =? "hold") || (s =? "stopped") then "text-red-600 bg-red-50"
  else if (s =? "early") then "text-blue-600 bg-blue-50"
  else "text-gray-600 bg-gray-50".

End TrainTracker.


(** ** The event loop of one mounted page *)

Module Session.

Import Effect TrainTracker.

(** The mount effect (lines 40-46) runs once, after the first render.  The
    [fetchAllTrains] it calls and hands to [setInterval] is the function
    object of that first render, so the [selectedTrain] this handler reads
    is the first render's cell, whatever the live state has become. *)
Definition poll : Reply (Js.Value TrainPosition) -> Date -> Handler unit :=
  fetchAllTrains (selectedTrain initialState).

(** The page between two events: the live state and console, and the
    requests whose promises have not settled. *)
Record Machine : Type := {
  world : World;
  polls : nat;        (* fleet requests in flight *)
  searches : nat      (* search requests in flight *)
}.

(** After the first render and its mount effect: [fetchAllTrains()] has
    sent the first fleet request and the interval is armed. *)
Definition mounted : Machine := {|
  world := {| ui := initialState; console := [] |};
  polls := 1;
  searches := 0
|}.

(** A handler runs to completion before the next event is taken.
    [searchTrains] and [setSearchQuery] are defined by the component but no
    element of its markup calls them; [Submit] and [Input] stand for a
    caller that does, from the latest render. *)
Inductive Event : Type :=
| Tick                                             (* the 5000 ms interval fires *)
| FleetReply (reply : Reply (Js.Value TrainPosition)) (now : Date)
                                                   (* a fleet request settles *)
| Click (card : nat)                               (* onClick of the card-th train card *)
| Input (q : string)                               (* setSearchQuery q *)
| Submit                                           (* searchTrains() *)
| SearchReply (reply : Reply Results).             (* a search request settles *)

(** The train cards rendered by [allTrains.map], one per train.  Only an
    array has a [map]: on anything else the render throws, the page is
    unmounted, and the cleanup of the mount effect clears the interval. *)
Definition cards (s : State) : option (list TrainPosition) :=
  match allTrains s with
  | Js.Array items => Some items
  | _ => None
  end.

(** The identities the entities list. *)
Definition listed (s : State) : list Z :=
  match cards s with
  | Some shown => map trainId shown
  | None => []
  end.

(** One event on a page that shows the cards [shown]; [None] when the
    event cannot happen. *)
Definition handle (shown : list TrainPosition) (m : Machine) (e : Event) : option Machine :=
  match e with
  | Tick =>
      Some {| world := world m; polls := S (polls m); searches := searches m |}
  | FleetReply reply now =>
      match polls m with
      | O => None
      | S pending =>
          Some {| world := exec (poll reply now) (world m);
                  polls := pending; searches := searches m |}
      end
  | Click card =>
      match nth_error shown card with
      | Some train =>
          Some {| world := exec (selectTrain train) (world m);
                  polls := polls m; searches := searches m |}
      | None => None
      end
  | Input q =>
      Some {| world := exec (setSearchQuery q) (world m);
              polls := polls m; searches := searches m |}
  | Submit =>
      let '(sent, w) := searchTrains_send (searchQuery (ui (world m))) (world m) in
      Some {| world := w; polls := polls m;
              searches := match sent with
                          | Normal true => S (searches m)
                          | _ => searches m
                          end |}
  | SearchReply reply =>
      match searches m with
      | O => None
      | S pending =>
          Some {| world := exec (searchTrains_settle reply) (world m);
                  polls := polls m; searches := pending |}
      end
  end.

(** One event.  Nothing happens any more on a page whose render threw. *)
Definition step (m : Machine) (e : Event) : option Machine :=
  match cards (ui (world m)) with
  | Some shown => handle shown m e
  | None => None
  end.

Fixpoint run (m : Machine) (events : list Event) : option Machine :=
  match events with
  | [] => Some m
  | e :: rest =>
      match step m e with
      | Some m' => run m' rest
      | None => None
      end
  end.

Definition reachable (m : Machine) : Prop :=
  exists events, run mounted events = Some m.

(** The scheduling rule as the design text words it: polls do not overlap,
    a tick that finds one in flight waits for it or is dropped.  So there
    is never more than one fleet request in flight. *)
Definition polls_never_overlap : Prop :=
  forall m, reachable m -> (polls m <= 1)%nat.

End Session.

(** ** The status mapping as the design text words it *)

Module Design.

Inductive ColorClass : Type := success | caution | danger | info | neutral.

(** The closed mapping, status names taken literally. *)
Definition status_class (status : string) : ColorClass :=
  if (status =? "proceed") || (status =? "on-time") then success
  else if (status =? "warning") || (status =? "delayed") then caution
  else if (status =? "hold") || (status =? "stopped") then danger
  else if (status =? "early") then info
  else neutral.

(** The page's palette for each class. *)
Definition css (c : ColorClass) : string :=
  match c with
  | success => "text-green-600 bg-green-50"
  | caution => "text-amber-600 bg-amber-50"
  | danger => "text-red-600 bg-red-50"
  | info => "text-blue-600 bg-blue-50"
  | neutral => "text-gray-600 bg-gray-50"
  end.

End Design.


(** ** Sample data *)

Module Sample.

Import TrainTracker.

(** A train record with the given identity, name and speed; the other
    fields are fixed. *)
Definition train (id : Z) (name : string) (kmh : Z) : TrainPosition := {|
  trainId := id;
  trainName := name;
  trainNumber := "12951";
  currentLat := 19 # 1;
  currentLon := 73 # 1;
  speed := inject_Z kmh;
  heading := 0;
  lastStation := "Surat";
  nextStation := "Vadodara";
  distanceToNext := 40 # 1;
  totalDistance := 1384 # 1;
  distanceCovered := 300 # 1;
  delay := 0;
  status := "On Time";
  estimatedArrival := "08:35";
  progress := 21 # 1;
  route := []
|}.

Definition fresh : World := {| ui := initialState; console := [] |}.

(** Train 7 as three successive snapshots report it. *)
Definition seen7 : TrainPosition := train 7 "Rajdhani Express" 80.
Definition passing7 : TrainPosition := train 7 "Rajdhani Express" 88.
Definition moved7 : TrainPosition := train 7 "Rajdhani Express" 95.

Definition t1 : TrainPosition := train 1 "Shatabdi Express" 110.
Definition t2 : TrainPosition := train 2 "Duronto Express" 90.
Definition t3 : TrainPosition := train 3 "Garib Rath" 70.
Definition t5 : TrainPosition := train 5 "Deccan Queen" 60.
Definition t9 : TrainPosition := train 9 "Gitanjali Express" 100.

(** A page showing [items] with [selected] selected. *)
Definition showing (items : list TrainPosition) (selected : option TrainPosition) : World := {|
  ui := {| searchQuery := "";
           selectedTrain := selected;
           allTrains := Js.Array items;
           loading := false;
           error := None;
           lastUpdated := Some 1000%Z |};
  console := []
|}.

End Sample.


(** ** What the render shows of the state *)

Module View.

Import TrainTracker.


(** [a > b] on finite numbers. *)
Definition greater (a b : number) : bool := negb (Qle_bool a b).

(** The look of one stop of the selected train's route, lines 283-291. *)
Definition stop_class (train : TrainPosition) (stop : Stop) : string :=
  if station stop =? lastStation train
  then "bg-green-50 border-l-4 border-green-500"
  else if station stop =? nextStation train
  then "bg-blue-50 border-l-4 border-blue-500"
  else if greater (distanceCovered train) (distance stop)
  then "bg-gray-50"
  else "bg-white border border-gray-200".

(** Whether the stop carries the "Last Station" line, lines 299-301, and
    the "Next Station" line, lines 302-304. *)
Definition last_label (train : TrainPosition) (stop : Stop) : bool :=
  station stop =? lastStation train.

Definition next_label (train : TrainPosition) (stop : Stop) : bool :=
  station stop =? nextStation train.

(** The "No trains available" notice, line 197:
    [allTrains.length === 0 && !loading]. *)
Definition empty_notice (s : State) : bool :=
  match allTrains s with
  | Js.Array items => (List.length items =? 0)%nat && negb (loading s)
  | _ => false
  end.

(** The "Loading trains..." notice, line 203. *)
Definition loading_notice (s : State) : bool := loading s.

End View.

(** ** Kinds of events and replies *)

Module Traffic.

Import TrainTracker Session.

(** The events the mount effect alone produces: the interval's ticks and
    the replies to the fleet requests. *)
Definition timer_event (e : Event) : bool :=
  match e with
  | Tick | FleetReply _ _ => true
  | _ => false
  end.



(** A string of white space only. *)
Fixpoint blank (s : string) : bool :=
  match s with
  | EmptyString => true
  | String c rest => Js.is_space c && blank rest
  end.

End Traffic.


(** * Properties *)

Import Effect TrainTracker Session Sample.

(** Unfolds a handler down to the state it leaves. *)
Ltac run_handler :=
  unfold poll, fetchAllTrains, searchTrains, searchTrains_send, searchTrains_settle,
    selectTrain, fleet, fleet_body, found, refused, await, json, property_of,
    find_in, defined, setSearchQuery, setSelectedTrain, setAllTrains, setLoading,
    setError, setLastUpdated, console_error, on_ui, exec, result, try_catch,
    try_finally, bind, ret, throw, update in *;
  cbn [ok json_body ui console fst snd searchQuery selectedTrain allTrains loading
       error lastUpdated] in *.

(** Closes the five equivalences once the lower-cased status is known to
    be one of the seven names. *)
Ltac matched_status :=
  cbn [orb];
  repeat split; intros H; try discriminate H; auto;
  try (destruct H as [H|H]; discriminate H);
  exfalso; apply H; cbn; auto 10.

(** ** What one fleet reply does to the state *)

Section FleetReplies.

Variable closure : option TrainPosition.   (* the handler's [selectedTrain] *)
Variable now : Date.
Variable w : World.

(** A fleet listing replaces the entities and the refresh time; the
    selection moves only when the closure holds one and the listing has a
    record of its identity. *)
Lemma fetchAllTrains_array (items : list TrainPosition) :
  exec (fetchAllTrains closure (fleet items) now) w =
  {| ui := {| searchQuery := searchQuery (ui w);
              selectedTrain :=
                match closure with
                | Some selected =>
                    match find (fun t => trainId t =? trainId selected)%Z items with
                    | Some t => Some t
                    | None => selectedTrain (ui w)
                    end
                | None => selectedTrain (ui w)
                end;
              allTrains := Js.Array items;
              loading := loading (ui w);
              error := error (ui w);
              lastUpdated := Some now |};
     console := console w |}.
Proof.
  run_handler.
  destruct closure as [selected|]; cbn; [|reflexivity].
  destruct (find _ items); reflexivity.
Qed.

(** A request that fails, or a response that cannot be read, writes no
    state cell. *)
Lemma fetchAllTrains_unread (reply : Reply (Js.Value TrainPosition)) :
  reply = Rejects \/
  (exists b, reply = Resolves {| ok := false; json_body := b |}) \/
  reply = Resolves {| ok := true; json_body := None |} \/
  reply = Resolves {| ok := true; json_body := Some NullBody |} ->
  ui (exec (fetchAllTrains closure reply now) w) = ui w.
Proof.
  intros [-> | [[b ->] | [-> | ->]]]; reflexivity.
Qed.

(** A success response with a readable, non-null body always replaces the
    entities and the refresh time, whatever happens afterwards. *)
Lemma fetchAllTrains_body (v : Js.Value TrainPosition) :
  let w' := exec (fetchAllTrains closure (fleet_body v) now) w in
  allTrains (ui w') = Js.or_empty v /\
  lastUpdated (ui w') = Some now /\
  searchQuery (ui w') = searchQuery (ui w) /\
  loading (ui w') = loading (ui w) /\
  error (ui w') = error (ui w).
Proof.
  run_handler.
  destruct closure as [selected|]; [|cbn; auto].
  destruct v; cbn; auto.
  destruct (find _ items); cbn; auto.
Qed.

(** Only an array can move the selection. *)
Lemma fetchAllTrains_not_array (v : Js.Value TrainPosition) :
  (forall items, v <> Js.Array items) ->
  selectedTrain (ui (exec (fetchAllTrains closure (fleet_body v) now) w)) =
  selectedTrain (ui w).
Proof.
  intros Hv. run_handler.
  destruct closure as [selected|]; [|reflexivity].
  destruct v; cbn; try reflexivity.
  now destruct (Hv items).
Qed.

End FleetReplies.

(** The handler the timer runs never writes the selection. *)
Lemma poll_keeps_selection reply now w :
  selectedTrain (ui (exec (poll reply now) w)) = selectedTrain (ui w).
Proof.
  destruct reply as [|[[] [[|v]|]]]; reflexivity.
Qed.

(** A handler whose closure holds the selection re-binds it to the first
    record of the same identity. *)
Lemma fetchAllTrains_rebinds selected items now w t :
  find (fun t => trainId t =? trainId selected)%Z items = Some t ->
  selectedTrain (ui (exec (fetchAllTrains (Some selected) (fleet items) now) w)) = Some t.
Proof.
  intros Hfind. rewrite fetchAllTrains_array. cbn.
  now rewrite Hfind.
Qed.

Lemma fetchAllTrains_keeps_missing selected items now w :
  find (fun t => trainId t =? trainId selected)%Z items = None ->
  selectedTrain (ui (exec (fetchAllTrains (Some selected) (fleet items) now) w)) =
  selectedTrain (ui w).
Proof.
  intros Hfind. rewrite fetchAllTrains_array. cbn.
  now rewrite Hfind.
Qed.

(** ** Selection and snapshots *)

(** A fleet reply taken by the page never moves the selection. *)
Lemma fleet_reply_keeps_selection m reply now m' :
  step m (FleetReply reply now) = Some m' ->
  selectedTrain (ui (world m')) = selectedTrain (ui (world m)).
Proof.
  unfold step. destruct (cards (ui (world m))); [|discriminate].
  cbn [handle]. destruct (polls m); [discriminate|].
  intros [= <-]. cbn [world]. apply poll_keeps_selection.
Qed.

(** C1, evaluated on the page as wired.  The first poll lists train 7 and
    the user clicks its card.  Snapshot N lists train 7 with new data, N+1
    does not list it, N+2 lists it again.  After N+1 the selection is still
    there; but after N, and after N+2, it still holds the record that was
    clicked, while the entities show the new one.  The timer's handler
    closes over the first render, where nothing is selected, so it skips
    the re-binding branch every time. *)
Theorem C1_timer_poll_leaves_selection_stale :
  exists mN mN1 mN2,
    run mounted [FleetReply (fleet [seen7; t1]) 1000%Z; Click 0;
                 Tick; FleetReply (fleet [passing7; t1]) 6000%Z] = Some mN /\
    run mN [Tick; FleetReply (fleet [t1]) 11000%Z] = Some mN1 /\
    run mN1 [Tick; FleetReply (fleet [moved7; t1]) 16000%Z] = Some mN2 /\
    allTrains (ui (world mN)) = Js.Array [passing7; t1] /\
    selectedTrain (ui (world mN)) = Some seen7 /\
    selectedTrain (ui (world mN1)) = Some seen7 /\
    allTrains (ui (world mN2)) = Js.Array [moved7; t1] /\
    selectedTrain (ui (world mN2)) = Some seen7 /\
    selectedTrain (ui (world mN2)) <> Some moved7.
Proof.
  do 3 eexists.
  split; [reflexivity|]. split; [reflexivity|]. split; [reflexivity|].
  cbn. repeat split. discriminate.
Qed.

(** C2: a successful fleet fetch makes the entities exactly the fetched
    list, whatever was held before and whatever the closure holds; after
    {1,2,3}, fetching {1,3} leaves exactly {1,3} and no record of 2. *)
Theorem C2_fetch_replaces_entities :
  (forall closure items now w,
     allTrains (ui (exec (fetchAllTrains closure (fleet items) now) w)) = Js.Array items) /\
  (forall closure now,
     let after := ui (exec (fetchAllTrains closure (fleet [t1; t3]) now)
                           (showing [t1; t2; t3] closure)) in
     cards after = Some [t1; t3] /\
     listed after = [1; 3]%Z /\
     ~ In 2%Z (listed after)).
Proof.
  split.
  - intros. now rewrite fetchAllTrains_array.
  - intros. subst after. rewrite fetchAllTrains_array. unfold listed, cards. cbn.
    repeat split. intros [H | [H | []]]; discriminate H.
Qed.

(** C5 as stated fails: the second application reads the clock again. *)
Lemma C5_replay_moves_lastUpdated :
  let once := exec (poll (fleet [t1; t3]) 1000%Z) fresh in
  let twice := exec (poll (fleet [t1; t3]) 6000%Z) once in
  lastUpdated (ui once) = Some 1000%Z /\
  lastUpdated (ui twice) = Some 6000%Z /\
  ui twice <> ui once.
Proof.
  cbn. repeat split. discriminate.
Qed.

(** C5, amended: replaying a reply leaves every cell but [lastUpdated] as
    the first application left it; [lastUpdated] is the clock of the second
    application, so the replay changes nothing when the clock reads the
    same. *)
Theorem C5_replay_idempotent_up_to_clock :
  forall closure reply now1 now2 w,
    let once := ui (exec (fetchAllTrains closure reply now1) w) in
    let twice := ui (exec (fetchAllTrains closure reply now2)
                          (exec (fetchAllTrains closure reply now1) w)) in
    allTrains twice = allTrains once /\
    selectedTrain twice = selectedTrain once /\
    error twice = error once /\
    loading twice = loading once /\
    searchQuery twice = searchQuery once /\
    (forall items, reply = fleet items -> lastUpdated twice = Some now2) /\
    ui (exec (fetchAllTrains closure reply now1)
             (exec (fetchAllTrains closure reply now1) w)) = once.
Proof.
  intros closure reply now1 now2 w.
  destruct reply as [|[[] [[|v]|]]]; cbn zeta;
    try (repeat split; try reflexivity; intros items Hitems; discriminate Hitems).
  change (Resolves {| ok := true; json_body := Some (Body v) |}) with (fleet_body v).
  destruct v as [| |b|n|s| |items];
    try (destruct closure; repeat split; try reflexivity;
         intros items Hitems; discriminate Hitems).
  change (fleet_body (Js.Array items)) with (fleet items).
  rewrite !fetchAllTrains_array. cbn.
  destruct closure as [selected|]; cbn; [|repeat split; reflexivity].
  destruct (find _ items); repeat split; reflexivity.
Qed.

(** The replay law where it has a premise to meet: a fleet listing replayed
    five seconds later. *)
Lemma C5_replay_witness :
  lastUpdated (ui (exec (fetchAllTrains (Some seen7) (fleet [moved7]) 6000%Z)
                        (exec (fetchAllTrains (Some seen7) (fleet [moved7]) 1000%Z) fresh)))
  = Some 6000%Z.
Proof.
  exact (proj1 (proj2 (proj2 (proj2 (proj2 (proj2
    (C5_replay_idempotent_up_to_clock (Some seen7) (fleet [moved7]) 1000%Z 6000%Z fresh))))))
    [moved7] eq_refl).
Defined.

(** ** Fleet replies that carry no listing *)

(** C6 as stated fails for a malformed [trains] that is truthy: [||] keeps
    it, and the entities cell then holds a string. *)
Lemma C6_truthy_malformed_trains_is_kept :
  let w' := exec (poll (fleet_body (Js.Str "unavailable")) 6000%Z)
                 (showing [t1; t3] (Some t1)) in
  allTrains (ui w') = Js.Str "unavailable" /\
  allTrains (ui w') <> Js.Array [].
Proof.
  cbn. split; [reflexivity | discriminate].
Qed.

(** C6, amended: a success response whose body is not [null] always sets the
    refresh time and leaves the user-visible error alone, and the entities
    become [trains || []]: empty when [trains] is absent or falsy, for
    every state and every closure, with the selection kept; a truthy
    [trains] is stored as it is.  On an absent or falsy [trains] a handler
    whose closure holds no selection, as the timer's does, completes
    without throwing or logging. *)
Theorem C6_falsy_trains_is_an_empty_fleet :
  forall closure v now w,
    let w' := exec (fetchAllTrains closure (fleet_body v) now) w in
    allTrains (ui w') = (if Js.truthy v then v else Js.Array []) /\
    lastUpdated (ui w') = Some now /\
    error (ui w') = error (ui w) /\
    (Js.truthy v = false ->
       allTrains (ui w') = Js.Array [] /\
       selectedTrain (ui w') = selectedTrain (ui w) /\
       (closure = None ->
          console w' = console w /\
          result (fetchAllTrains closure (fleet_body v) now) w = Normal tt)).
Proof.
  intros closure v now w w'. subst w'.
  destruct (fetchAllTrains_body closure now w v) as (Hall & Hlast & _ & _ & Herr).
  cbn zeta in Hall, Hlast, Herr. unfold Js.or_empty in Hall.
  split; [exact Hall|]. split; [exact Hlast|]. split; [exact Herr|].
  intros Hv. split; [now rewrite Hall, Hv|]. split.
  - apply fetchAllTrains_not_array. intros items ->. discriminate Hv.
  - intros ->.
    destruct v; try discriminate Hv; try (split; reflexivity);
      cbn in Hv; split; cbn; now rewrite Hv.
Qed.

(** The amended law at a body without [trains], on a page with train 7
    selected, for the timer's handler. *)
Lemma C6_absent_trains_witness :
  let w := showing [seen7] (Some seen7) in
  let w' := exec (poll (fleet_body Js.Undefined) 6000%Z) w in
  allTrains (ui w') = Js.Array [] /\
  lastUpdated (ui w') = Some 6000%Z /\
  selectedTrain (ui w') = Some seen7 /\
  error (ui w') = None /\
  console w' = [].
Proof.
  pose proof (C6_falsy_trains_is_an_empty_fleet None Js.Undefined 6000%Z
                (showing [seen7] (Some seen7))) as H.
  cbn zeta in H. destruct H as (_ & H2 & H3 & H4).
  destruct (H4 eq_refl) as (H5 & H6 & H7).
  destruct (H7 eq_refl) as [H8 _].
  exact (conj H5 (conj H2 (conj H6 (conj H3 H8)))).
Defined.

(** The same body met by a handler whose closure does hold a selection:
    the entities are emptied first, then [find] is called on [undefined],
    and the throw is caught and logged. *)
Lemma fetchAllTrains_absent_trains_logged selected now w :
  let w' := exec (fetchAllTrains (Some selected) (fleet_body Js.Undefined) now) w in
  allTrains (ui w') = Js.Array [] /\
  console w' = ("Error fetching trains:", Js.TypeError) :: console w.
Proof.
  split; reflexivity.
Qed.

(** A [null] body is read no further than [data.trains]: nothing is
    written and the throw is logged. *)
Lemma fetchAllTrains_null_body closure now w :
  exec (fetchAllTrains closure (Resolves {| ok := true; json_body := Some NullBody |}) now) w =
  {| ui := ui w; console := ("Error fetching trains:", Js.TypeError) :: console w |}.
Proof.
  reflexivity.
Qed.

(** C7: a fleet fetch that fails, by a rejected request or a non-success
    status, leaves every state cell as it was: entities, selection, refresh
    time and the user-visible error.  The rejection is logged to the
    console only. *)
Theorem C7_failed_fetch_leaves_state :
  forall closure now w,
    ui (exec (fetchAllTrains closure Rejects now) w) = ui w /\
    console (exec (fetchAllTrains closure Rejects now) w) =
      ("Error fetching trains:", Js.NetworkError) :: console w /\
    (forall body,
       exec (fetchAllTrains closure (Resolves {| ok := false; json_body := body |}) now) w = w) /\
    result (fetchAllTrains closure Rejects now) w = Normal tt.
Proof.
  intros closure now [s c]. repeat split.
Qed.

(** ** Search *)

Section Searches.

Variable q : string.
Variable w : World.
Hypothesis not_blank : Js.truthy_string (Js.trim q) = true.

(** A search that finds something: the first result becomes the selection,
    the loading flag and the error are reset, nothing else is written. *)
Lemma searchTrains_found first rest :
  exec (searchTrains q (found (first :: rest))) w =
  {| ui := {| searchQuery := searchQuery (ui w);
              selectedTrain := Some first;
              allTrains := allTrains (ui w);
              loading := false;
              error := None;
              lastUpdated := lastUpdated (ui w) |};
     console := console w |}.
Proof.
  run_handler. rewrite not_blank. reflexivity.
Qed.

(** A search that ends any other way writes the error and the loading flag
    only. *)
Lemma searchTrains_message reply :
  (forall first rest, reply <> found (first :: rest)) ->
  exists message,
    exec (searchTrains q reply) w =
    {| ui := {| searchQuery := searchQuery (ui w);
                selectedTrain := selectedTrain (ui w);
                allTrains := allTrains (ui w);
                loading := false;
                error := Some message;
                lastUpdated := lastUpdated (ui w) |};
       console := console w |}.
Proof.
  intros Hreply. run_handler. rewrite not_blank. cbn.
  destruct reply as [|[[] [[|[[|first rest]|]]|]]]; cbn; eauto.
  now destruct (Hreply first rest).
Qed.

End Searches.


(** C3: a search that returns at least one result selects exactly the
    first one, whatever was selected before; the next poll keeps the
    selection on that identity, both for the timer's handler (which leaves
    the selected record itself in place) and for a handler whose closure
    holds the new selection. *)
Theorem C3_search_selects_first_result :
  forall q first rest w,
    Js.truthy_string (Js.trim q) = true ->
    let searched := exec (searchTrains q (found (first :: rest))) w in
    selectedTrain (ui searched) = Some first /\
    (forall others, exec (searchTrains q (found (first :: others))) w = searched) /\
    (forall items now,
       selectedTrain (ui (exec (poll (fleet items) now) searched)) = Some first) /\
    (forall items now,
       option_map trainId
         (selectedTrain (ui (exec (fetchAllTrains (selectedTrain (ui searched))
                                      (fleet items) now) searched)))
       = Some (trainId first)).
Proof.
  intros q first rest w Hq searched. subst searched.
  rewrite (searchTrains_found q w Hq). cbn [ui selectedTrain].
  split; [reflexivity|].
  split; [intros others; apply (searchTrains_found q w Hq)|].
  split; intros items now.
  - now rewrite poll_keeps_selection.
  - rewrite fetchAllTrains_array. cbn.
    destruct (find _ items) as [t|] eqn:Hfind; cbn; [|reflexivity].
    apply find_some in Hfind. destruct Hfind as [_ Hid].
    apply Z.eqb_eq in Hid. now rewrite Hid.
Qed.

(** Train 5 is selected, a search returns 9 (and 5 behind it), and the
    next poll lists both 5 and 9. *)
Lemma C3_search_override_witness :
  let searched := exec (searchTrains "gitanjali" (found [t9; t5]))
                       (showing [t5; t9] (Some t5)) in
  selectedTrain (ui searched) = Some t9 /\
  selectedTrain (ui (exec (poll (fleet [t5; t9]) 6000%Z) searched)) = Some t9.
Proof.
  pose proof (C3_search_selects_first_result "gitanjali" t9 [t5]
                (showing [t5; t9] (Some t5)) eq_refl) as H.
  cbn zeta in H. destruct H as (H1 & _ & H2 & _).
  split; [exact H1 | exact (H2 [t5; t9] 6000%Z)].
Defined.

(** C8: a search with no result and a search that fails each set their own
    message, and neither touches the selection or the entities. *)
Theorem C8_unsuccessful_search_keeps_selection :
  forall q w,
    Js.truthy_string (Js.trim q) = true ->
    let none := ui (exec (searchTrains q (found [])) w) in
    let failed := ui (exec (searchTrains q refused) w) in
    let broken := ui (exec (searchTrains q Rejects) w) in
    error none = Some "No trains found matching your search" /\
    error failed = Some "Search failed. Please try again." /\
    error broken = Some "Search error. Please check your connection." /\
    error none <> error failed /\
    error none <> error broken /\
    (forall s, In s [none; failed; broken] ->
       selectedTrain s = selectedTrain (ui w) /\
       allTrains s = allTrains (ui w) /\
       lastUpdated s = lastUpdated (ui w) /\
       loading s = false).
Proof.
  intros q w Hq none failed broken. subst none failed broken.
  run_handler. rewrite Hq. cbn.
  repeat split; try discriminate;
    destruct H as [<- | [<- | [<- | []]]]; reflexivity.
Qed.

(** Train 5 is selected and the search finds nothing. *)
Lemma C8_no_match_witness :
  let none := ui (exec (searchTrains "vande bharat" (found []))
                       (showing [t5; t9] (Some t5))) in
  error none = Some "No trains found matching your search" /\
  selectedTrain none = Some t5 /\
  allTrains none = Js.Array [t5; t9].
Proof.
  pose proof (C8_unsuccessful_search_keeps_selection "vande bharat"
                (showing [t5; t9] (Some t5)) eq_refl) as H.
  cbn zeta in H. destruct H as (H1 & _ & _ & _ & _ & H6).
  destruct (H6 _ (or_introl eq_refl)) as (H7 & H8 & _).
  exact (conj H1 (conj H7 H8)).
Defined.

(** C10: a search that returns at least one result writes the selection,
    the loading flag and the error, and nothing else: the entities and the
    refresh time stay, and the selected record is the response's own first
    element.  So a selected identity that the entities lack is still
    lacking after the search. *)
Theorem C10_search_writes_selection_only :
  forall q first rest w,
    Js.truthy_string (Js.trim q) = true ->
    let searched := exec (searchTrains q (found (first :: rest))) w in
    selectedTrain (ui searched) = Some first /\
    allTrains (ui searched) = allTrains (ui w) /\
    lastUpdated (ui searched) = lastUpdated (ui w) /\
    searchQuery (ui searched) = searchQuery (ui w) /\
    loading (ui searched) = false /\
    error (ui searched) = None /\
    console searched = console w /\
    (~ In (trainId first) (listed (ui w)) ->
     ~ In (trainId first) (listed (ui searched))).
Proof.
  intros q first rest w Hq searched. subst searched.
  rewrite (searchTrains_found q w Hq). unfold listed, cards. cbn.
  repeat split; trivial.
Qed.

(** The page lists trains 1 and 3, and the search returns train 9. *)
Lemma C10_selected_outside_entities_witness :
  let searched := exec (searchTrains "gitanjali" (found [t9])) (showing [t1; t3] None) in
  selectedTrain (ui searched) = Some t9 /\
  allTrains (ui searched) = Js.Array [t1; t3] /\
  ~ In (trainId t9) (listed (ui searched)).
Proof.
  pose proof (C10_search_writes_selection_only "gitanjali" t9 []
                (showing [t1; t3] None) eq_refl) as H.
  cbn zeta in H. destruct H as (H1 & H2 & _ & _ & _ & _ & _ & H8).
  split; [exact H1 | split; [exact H2 |]].
  apply H8. cbn. intros [H | [H | []]]; discriminate H.
Defined.

(** ** Status colours *)

(** [toLowerCase] changes nothing in a string without capitals. *)
Lemma toLowerCase_on_time : Js.toLowerCase "On Time" = "on time".
Proof. reflexivity. Qed.

(** C9 as stated fails on the literal status names: the page matches
    "on time", written with a space, so "on-time" falls to the default; and
    it lower-cases first, so "PROCEED" is not "anything else". *)
Lemma C9_literal_mapping_differs :
  getStatusColor "on-time" = Design.css Design.neutral /\
  Design.status_class "on-time" = Design.success /\
  getStatusColor "on-time" <> Design.css (Design.status_class "on-time") /\
  getStatusColor "PROCEED" = Design.css Design.success /\
  Design.status_class "PROCEED" = Design.neutral.
Proof.
  cbn. repeat split. discriminate.
Qed.

(** C9, amended: the class depends on the lower-cased status alone:
    "proceed" and "on time" are success, "warning" and "delayed" caution,
    "hold" and "stopped" danger, "early" info, and every other string,
    "on-time" among them, neutral. *)
Theorem C9_status_colour_by_lowercased_name :
  forall status,
    let s := Js.toLowerCase status in
    (getStatusColor status = Design.css Design.success <->
       s = "proceed" \/ s = "on time") /\
    (getStatusColor status = Design.css Design.caution <->
       s = "warning" \/ s = "delayed") /\
    (getStatusColor status = Design.css Design.danger <->
       s = "hold" \/ s = "stopped") /\
    (getStatusColor status = Design.css Design.info <-> s = "early") /\
    (getStatusColor status = Design.css Design.neutral <->
       ~ In s ["proceed"; "on time"; "warning"; "delayed"; "hold"; "stopped"; "early"]).
Proof.
  intros status s. unfold getStatusColor. fold s. clearbody s.
  unfold Design.css.
  destruct (String.eqb_spec s "proceed") as [->|H1]; [matched_status|].
  destruct (String.eqb_spec s "on time") as [->|H2]; [matched_status|].
  destruct (String.eqb_spec s "warning") as [->|H3]; [matched_status|].
  destruct (String.eqb_spec s "delayed") as [->|H4]; [matched_status|].
  destruct (String.eqb_spec s "hold") as [->|H5]; [matched_status|].
  destruct (String.eqb_spec s "stopped") as [->|H6]; [matched_status|].
  destruct (String.eqb_spec s "early") as [->|H7]; [matched_status|].
  cbn [orb].
  repeat split; intros H; try discriminate H;
    try (destruct H as [H|H]; congruence); try congruence.
  cbn. intros [E|[E|[E|[E|[E|[E|[E|[]]]]]]]]; congruence.
Qed.

(** The status the sample trains report, capitalised, is success. *)
Lemma C9_on_time_witness :
  getStatusColor (status seen7) = "text-green-600 bg-green-50".
Proof.
  exact (proj2 (proj1 (C9_status_colour_by_lowercased_name (status seen7)))
               (or_intror toLowerCase_on_time)).
Defined.

(** ** Scheduling *)

Lemma run_app m events1 events2 :
  run m (events1 ++ events2)%list =
  match run m events1 with
  | Some m' => run m' events2
  | None => None
  end.
Proof.
  revert m. induction events1 as [|e events1 IH]; intros m; cbn; [reflexivity|].
  destruct (step m e); [apply IH | reflexivity].
Qed.

Lemma reachable_mounted : reachable mounted.
Proof. now exists []. Qed.

Lemma reachable_step m e m' :
  reachable m -> step m e = Some m' -> reachable m'.
Proof.
  intros [events Hrun] Hstep. exists (events ++ [e])%list.
  rewrite run_app, Hrun. cbn. now rewrite Hstep.
Qed.

(** On a page that rendered, a tick is always taken: it adds a request
    and writes nothing. *)
Lemma step_tick m :
  cards (ui (world m)) <> None ->
  step m Tick =
  Some {| world := world m; polls := S (polls m); searches := searches m |}.
Proof.
  unfold step. destruct (cards (ui (world m))); [reflexivity | congruence].
Qed.

Lemma run_ticks n m :
  cards (ui (world m)) <> None ->
  run m (repeat Tick n) =
  Some {| world := world m; polls := n + polls m; searches := searches m |}.
Proof.
  revert m. induction n as [|n IH]; intros m Hm; cbn [repeat run].
  - now destruct m.
  - rewrite (step_tick m Hm), IH by exact Hm. cbn. now rewrite Nat.add_succ_r.
Qed.

(** On a page that rendered, with a fleet request in flight, its reply is
    always taken, and applied by the timer's handler. *)
Lemma step_fleet_reply w pending s reply now :
  cards (ui w) <> None ->
  step {| world := w; polls := S pending; searches := s |} (FleetReply reply now) =
  Some {| world := exec (poll reply now) w; polls := pending; searches := s |}.
Proof.
  unfold step. cbn [world]. destruct (cards (ui w)); [reflexivity | congruence].
Qed.


(** C4 as stated fails: the timer fires while the request sent at mount is
    still in flight, and a second one is sent. *)
Lemma C4_polls_overlap :
  ~ polls_never_overlap /\
  exists m, run mounted [Tick] = Some m /\ polls mounted = 1%nat /\ polls m = 2%nat.
Proof.
  split.
  - intros Hnever.
    specialize (Hnever _ (reachable_step mounted Tick _ reachable_mounted eq_refl)).
    cbn in Hnever. lia.
  - eexists. repeat split.
Qed.

(** C4, amended: each fleet or search reply is applied by one handler
    continuation, run whole in the step that takes the reply; but polls are
    not serialised.  On a page that rendered, a tick always sends a new
    request and writes nothing, so any number of polls can be in flight,
    and of two replies the one applied last decides the entities and the
    refresh time. *)
Theorem C4_replies_whole_polls_unserialised :
  (forall m, reachable m -> cards (ui (world m)) <> None ->
     exists m', step m Tick = Some m' /\ reachable m' /\
                polls m' = S (polls m) /\ world m' = world m) /\
  (forall n, exists m, reachable m /\ polls m = S n) /\
  (forall m reply now, cards (ui (world m)) <> None -> polls m <> 0%nat ->
     exists m', step m (FleetReply reply now) = Some m' /\
                world m' = exec (fetchAllTrains None reply now) (world m) /\
                S (polls m') = polls m) /\
  (forall m reply, cards (ui (world m)) <> None -> searches m <> 0%nat ->
     exists m', step m (SearchReply reply) = Some m' /\
                world m' = exec (searchTrains_settle reply) (world m) /\
                S (searches m') = searches m) /\
  (forall m items1 now1 items2 now2,
     cards (ui (world m)) <> None -> (2 <= polls m)%nat ->
     exists m', run m [FleetReply (fleet items1) now1; FleetReply (fleet items2) now2] = Some m' /\
                allTrains (ui (world m')) = Js.Array items2 /\
                lastUpdated (ui (world m')) = Some now2).
Proof.
  split; [|split; [|split; [|split]]].
  - intros m Hm Hcards. eexists. split; [apply (step_tick m Hcards)|].
    split; [|split; reflexivity].
    apply (reachable_step m Tick); [exact Hm | apply (step_tick m Hcards)].
  - intros n. eexists. split.
    + exists (repeat Tick n). apply run_ticks. discriminate.
    + cbn. lia.
  - intros m reply now Hcards Hpolls.
    destruct m as [w [|pending] s]; [easy|]. cbn [world] in Hcards.
    eexists. split; [apply (step_fleet_reply w pending s reply now Hcards)|].
    split; reflexivity.
  - intros m reply Hcards Hsearches. unfold step.
    destruct (cards (ui (world m))); [|congruence].
    destruct m as [w p [|pending]]; [easy|].
    eexists. repeat split.
  - intros m items1 now1 items2 now2 Hcards Hpolls.
    destruct m as [w [|[|pending]] s]; cbn in Hpolls; try lia.
    cbn [world] in Hcards. cbn [run].
    rewrite (step_fleet_reply w _ s _ now1 Hcards).
    rewrite step_fleet_reply
      by (unfold poll; rewrite fetchAllTrains_array; discriminate).
    eexists. split; [reflexivity|]. cbn [world]. unfold poll.
    rewrite !fetchAllTrains_array. split; reflexivity.
Qed.

(** One tick after mount, two fleet requests are in flight and the state
    is as the first render left it. *)
Lemma C4_second_poll_in_flight_witness :
  exists m, step mounted Tick = Some m /\ reachable m /\
            polls m = 2%nat /\ world m = world mounted.
Proof.
  refine (proj1 C4_replies_whole_polls_unserialised mounted reachable_mounted _).
  discriminate.
Defined.

(** A search is written in two steps, and a fleet reply can be applied in
    between: the page is still loading when the listing arrives, and the
    search result lands on the new listing. *)
Example search_straddles_a_poll :
  exists m1 m2,
    run mounted [Input "rajdhani"; Submit; FleetReply (fleet [t1; t3]) 1000%Z] = Some m1 /\
    loading (ui (world m1)) = true /\
    allTrains (ui (world m1)) = Js.Array [t1; t3] /\
    step m1 (SearchReply (found [seen7])) = Some m2 /\
    loading (ui (world m2)) = false /\
    selectedTrain (ui (world m2)) = Some seen7 /\
    allTrains (ui (world m2)) = Js.Array [t1; t3].
Proof.
  do 2 eexists. split; [reflexivity|]. cbn. repeat split.
Qed.

(** A blank query is dropped by [Submit]: nothing is sent, nothing changes. *)
Example blank_submit_is_dropped :
  run mounted [Input "   "; Submit] = run mounted [Input "   "].
Proof. reflexivity. Qed.

(** A listing that is not an array ends the page: the next render throws
    and the timer is cleared with it. *)
Example malformed_listing_ends_the_page :
  run mounted [FleetReply (fleet_body (Js.Str "unavailable")) 1000%Z; Tick] = None.
Proof. reflexivity. Qed.

(** * Further properties of the page *)

Import View Traffic.

(** ** The query guard *)

Lemma trimStart_blank s : blank s = true -> Js.trimStart s = "".
Proof.
  induction s as [|c rest IH]; cbn; [reflexivity|].
  destruct (Js.is_space c); cbn; [exact IH | discriminate].
Qed.

(** What [trimStart] leaves is empty or starts with a character that is
    not white space; in the first case the whole string was blank. *)
Lemma trimStart_shape s :
  (Js.trimStart s = "" /\ blank s = true) \/
  (exists c rest, Js.trimStart s = String c rest /\ Js.is_space c = false /\
                  blank s = false).
Proof.
  induction s as [|c rest IH]; cbn; [now left|].
  destruct (Js.is_space c) eqn:Hc; cbn.
  - exact IH.
  - right. exists c, rest. now repeat split.
Qed.

Lemma trimEnd_keeps_head c rest :
  Js.is_space c = false -> Js.trimEnd (String c rest) <> "".
Proof.
  intros Hc. cbn. destruct (Js.trimEnd rest); [rewrite Hc|]; discriminate.
Qed.

(** [!searchQuery.trim()] holds exactly of the blank strings. *)
Lemma trim_truthy q : Js.truthy_string (Js.trim q) = negb (blank q).
Proof.
  unfold Js.trim, Js.truthy_string.
  destruct (trimStart_shape q) as [[-> ->] | (c & rest & -> & Hc & ->)];
    [reflexivity|].
  pose proof (trimEnd_keeps_head c rest Hc) as Hne.
  destruct (Js.trimEnd (String c rest)); [now destruct Hne | reflexivity].
Qed.



(** ** The loading flag and the search messages *)

(** The continuation of a search never throws and always ends with the
    loading flag off; it leaves the entities, the refresh time, the query
    and the console alone. *)
Lemma searchTrains_settle_frame reply w :
  let w' := exec (searchTrains_settle reply) w in
  result (searchTrains_settle reply) w = Normal tt /\
  loading (ui w') = false /\
  allTrains (ui w') = allTrains (ui w) /\
  lastUpdated (ui w') = lastUpdated (ui w) /\
  searchQuery (ui w') = searchQuery (ui w) /\
  console w' = console w.
Proof.
  destruct reply as [|[[] [[|[[|first rest]|]]|]]]; cbn; repeat split.
Qed.

(** X2: while a search is in flight the loading flag is on and the
    previous error is cleared, with nothing else written; however the
    request ends, [searchTrains] completes without throwing and the flag is
    off again. *)
Theorem search_loading_flag_brackets_the_request :
  forall q reply w,
    blank q = false ->
    let sent := exec (searchTrains_send q) w in
    let done := exec (searchTrains q reply) w in
    loading (ui sent) = true /\
    error (ui sent) = None /\
    selectedTrain (ui sent) = selectedTrain (ui w) /\
    allTrains (ui sent) = allTrains (ui w) /\
    lastUpdated (ui sent) = lastUpdated (ui w) /\
    done = exec (searchTrains_settle reply) sent /\
    loading (ui done) = false /\
    result (searchTrains q reply) w = Normal tt.
Proof.
  intros q reply w Hq sent done. subst sent done.
  assert (Hsend : searchTrains_send q = bind (setLoading true)
                    (fun _ => bind (setError None) (fun _ => ret true))).
  { unfold searchTrains_send. now rewrite trim_truthy, Hq. }
  unfold searchTrains. rewrite Hsend.
  destruct (searchTrains_settle_frame reply
              (exec (bind (setLoading true)
                      (fun _ => bind (setError None) (fun _ => ret true))) w))
    as (Hres & Hload & _).
  cbn zeta in Hload.
  repeat split; try reflexivity.
  - exact Hload.
  - revert Hres. unfold exec, result, bind, setLoading, setError, on_ui, update, ret.
    cbn. now intros ->.
Qed.

(** A search for "rajdhani" whose request is rejected. *)
Lemma search_loading_flag_witness :
  loading (ui (exec (searchTrains_send "rajdhani") fresh)) = true /\
  loading (ui (exec (searchTrains "rajdhani" Rejects) fresh)) = false.
Proof.
  pose proof (search_loading_flag_brackets_the_request "rajdhani" Rejects fresh eq_refl) as H.
  cbn zeta in H. destruct H as (H1 & _ & _ & _ & _ & _ & H7 & _).
  exact (conj H1 H7).
Defined.

(** X3: a success response to a search whose body cannot be used (it is
    not JSON, it is [null], or it has no [results]) is reported with the
    connection message, and leaves the selection and the entities as they
    were. *)
Theorem search_unusable_body_reads_as_connection_error :
  forall q w body,
    blank q = false ->
    In body [None; Some NullBody; Some (Body None)] ->
    let done := ui (exec (searchTrains q (Resolves {| ok := true; json_body := body |})) w) in
    error done = Some "Search error. Please check your connection." /\
    selectedTrain done = selectedTrain (ui w) /\
    allTrains done = allTrains (ui w) /\
    loading done = false.
Proof.
  intros q w body Hq Hbody done. subst done.
  unfold searchTrains, searchTrains_send. rewrite trim_truthy, Hq.
  destruct Hbody as [<- | [<- | [<- | []]]]; cbn; repeat split.
Qed.

(** Train 5 is selected and the search body is [{}]. *)
Lemma search_unusable_body_witness :
  let done := ui (exec (searchTrains "deccan"
                          (Resolves {| ok := true; json_body := Some (Body None) |}))
                       (showing [t5; t9] (Some t5))) in
  error done = Some "Search error. Please check your connection." /\
  selectedTrain done = Some t5.
Proof.
  pose proof (search_unusable_body_reads_as_connection_error "deccan"
                (showing [t5; t9] (Some t5)) (Some (Body None)) eq_refl
                (or_intror (or_intror (or_introl eq_refl)))) as H.
  cbn zeta in H. destruct H as (H1 & H2 & _).
  exact (conj H1 H2).
Defined.

(** ** More on fleet replies *)

(** X4: whatever the reply, the closure and the state, [fetchAllTrains]
    completes without throwing, never writes the query, the loading flag
    or the user-visible error, and logs at most one line. *)
Theorem fetch_never_throws_nor_touches_search_cells :
  forall closure reply now w,
    let w' := exec (fetchAllTrains closure reply now) w in
    result (fetchAllTrains closure reply now) w = Normal tt /\
    searchQuery (ui w') = searchQuery (ui w) /\
    loading (ui w') = loading (ui w) /\
    error (ui w') = error (ui w) /\
    (console w' = console w \/
     exists e, console w' = ("Error fetching trains:", e) :: console w).
Proof.
  intros closure reply now w.
  destruct reply as [|[[] [[|v]|]]]; cbn zeta;
    try (repeat split; try reflexivity; (now left) || (right; eexists; reflexivity)).
  destruct closure as [selected|].
  - destruct v as [| |b|n|s| |items];
      try (repeat split; try reflexivity; right; eexists; reflexivity).
    run_handler. cbn.
    destruct (find _ items); cbn; repeat split; now left.
  - repeat split; now left.
Qed.

(** X5: a success response whose body is not JSON, or is [null], writes no
    state cell: the entities and the refresh time stay as they were, and
    the throw is logged. *)
Theorem fetch_unreadable_body_keeps_state :
  forall closure now w,
    exec (fetchAllTrains closure (Resolves {| ok := true; json_body := None |}) now) w =
      {| ui := ui w; console := ("Error fetching trains:", Js.SyntaxError) :: console w |} /\
    exec (fetchAllTrains closure (Resolves {| ok := true; json_body := Some NullBody |}) now) w =
      {| ui := ui w; console := ("Error fetching trains:", Js.TypeError) :: console w |}.
Proof.
  intros closure now w. split; reflexivity.
Qed.

(** [find] returns the first element that passes the test. *)
Lemma find_first {A} (f : A -> bool) (l : list A) (a : A) :
  find f l = Some a ->
  exists before rest,
    l = (before ++ a :: rest)%list /\ f a = true /\
    forall x, In x before -> f x = false.
Proof.
  induction l as [|x l IH]; cbn; [discriminate|].
  destruct (f x) eqn:Hx.
  - intros [= ->]. exists [], l. repeat split; [assumption | intros y []].
  - intros Hfind. destruct (IH Hfind) as (before & rest & -> & Ha & Hbefore).
    exists (x :: before), rest. repeat split; [assumption|].
    intros y [<- | Hy]; [assumption | now apply Hbefore].
Qed.

(** X6: when the closure of [fetchAllTrains] holds a selection and the
    listing has a record of its identity, the selection becomes the first
    such record of the listing; later records of the same identity are
    passed over. *)
Theorem fetch_rebinds_to_first_record_of_identity :
  forall selected items now w x,
    In x items -> trainId x = trainId selected ->
    exists before t rest,
      items = (before ++ t :: rest)%list /\
      (forall y, In y before -> trainId y <> trainId selected) /\
      trainId t = trainId selected /\
      selectedTrain (ui (exec (fetchAllTrains (Some selected) (fleet items) now) w)) = Some t.
Proof.
  intros selected items now w x Hin Hid.
  destruct (find (fun t => trainId t =? trainId selected)%Z items) as [t|] eqn:Hfind.
  - destruct (find_first _ _ _ Hfind) as (before & rest & Hitems & Ht & Hbefore).
    exists before, t, rest. repeat split.
    + exact Hitems.
    + intros y Hy Heq. apply Hbefore in Hy. apply Z.eqb_neq in Hy. contradiction.
    + now apply Z.eqb_eq.
    + now apply fetchAllTrains_rebinds.
  - apply (find_none _ _ Hfind) in Hin. apply Z.eqb_neq in Hin. contradiction.
Qed.

(** Train 7 is listed twice: the first record wins. *)
Lemma fetch_rebinds_to_first_witness :
  exists before t rest,
    [t1; passing7; moved7] = (before ++ t :: rest)%list /\
    (forall y, In y before -> trainId y <> trainId seen7) /\
    trainId t = trainId seen7 /\
    selectedTrain (ui (exec (fetchAllTrains (Some seen7) (fleet [t1; passing7; moved7]) 6000%Z)
                            (showing [seen7] (Some seen7)))) = Some t.
Proof.
  exact (fetch_rebinds_to_first_record_of_identity seen7 [t1; passing7; moved7] 6000%Z
           (showing [seen7] (Some seen7)) moved7
           (or_intror (or_intror (or_introl eq_refl))) eq_refl).
Defined.

(** ** Clicking a card *)



(** ** Invariants of the running page *)

(** A property kept by every step holds along every run. *)
Lemma run_invariant (P : Machine -> Prop) :
  (forall m e m', P m -> step m e = Some m' -> P m') ->
  forall events m m', P m -> run m events = Some m' -> P m'.
Proof.
  intros Hstep. induction events as [|e events IH]; intros m m' Hm; cbn.
  - now intros [= <-].
  - destruct (step m e) as [m1|] eqn:He; [|discriminate].
    apply IH. exact (Hstep m e m1 Hm He).
Qed.

(** The timer's handler writes the entities, the refresh time and the
    console, and no other cell. *)
Lemma poll_frame reply now w :
  let w' := exec (poll reply now) w in
  selectedTrain (ui w') = selectedTrain (ui w) /\
  error (ui w') = error (ui w) /\
  loading (ui w') = loading (ui w) /\
  searchQuery (ui w') = searchQuery (ui w).
Proof.
  destruct reply as [|[[] [[|v]|]]]; cbn; repeat split.
Qed.

(** The step that takes [Submit], spelled out. *)
Lemma submit_step m m' :
  step m Submit = Some m' ->
  (loading (ui (world m')) = true /\ searches m' = S (searches m)) \/
  (world m' = world m /\ searches m' = searches m).
Proof.
  unfold step. destruct (cards (ui (world m))); [|discriminate].
  cbn [handle]. unfold searchTrains_send.
  destruct (Js.truthy_string (Js.trim (searchQuery (ui (world m))))); cbn;
    intros [= <-]; cbn; [left | right]; split; reflexivity.
Qed.

(** X8: on a running page the loading notice is only ever shown while a
    search request is in flight.  The converse fails: with two searches in
    flight the first reply turns the notice off. *)
Theorem loading_only_while_a_search_is_in_flight :
  (forall m, reachable m ->
     loading (ui (world m)) = true -> (0 < searches m)%nat) /\
  (exists m, reachable m /\
     searches m = 1%nat /\ loading (ui (world m)) = false).
Proof.
  split.
  - intros m [events Hrun]. revert Hrun.
    apply (run_invariant
             (fun m => loading (ui (world m)) = true -> (0 < searches m)%nat));
      [|cbn; discriminate].
    clear. intros m e m' Hm Hstep.
    destruct e as [|reply now|card|q| |reply].
    + revert Hstep. unfold step. destruct (cards (ui (world m))); [|discriminate].
      intros [= <-]. exact Hm.
    + revert Hstep. unfold step. destruct (cards (ui (world m))); [|discriminate].
      cbn [handle]. destruct (polls m); [discriminate|].
      intros [= <-]. cbn [world searches].
      destruct (poll_frame reply now (world m)) as (_ & _ & Hload & _).
      cbn zeta in Hload. now rewrite Hload.
    + revert Hstep. unfold step. destruct (cards (ui (world m))) as [shown|]; [|discriminate].
      cbn [handle]. destruct (nth_error shown card); [|discriminate].
      intros [= <-]. exact Hm.
    + revert Hstep. unfold step. destruct (cards (ui (world m))); [|discriminate].
      intros [= <-]. exact Hm.
    + destruct (submit_step m m' Hstep) as [[_ ->] | [-> ->]]; [lia | exact Hm].
    + revert Hstep. unfold step. destruct (cards (ui (world m))); [|discriminate].
      cbn [handle]. destruct (searches m); [discriminate|].
      intros [= <-]. cbn [world].
      destruct (searchTrains_settle_frame reply (world m)) as (_ & Hload & _).
      cbn zeta in Hload. rewrite Hload. discriminate.
  - eexists. split.
    + exists [Input "12951"; Submit; Submit; SearchReply (found [])]. reflexivity.
    + split; reflexivity.
Qed.

(** A search for "12951" has been submitted and not answered. *)
Lemma loading_only_while_searching_witness :
  exists m, run mounted [Input "12951"; Submit] = Some m /\
            loading (ui (world m)) = true /\ (0 < searches m)%nat.
Proof.
  pose proof (proj1 loading_only_while_a_search_is_in_flight) as H.
  eexists. split; [reflexivity|]. split; [reflexivity|].
  apply H; [exists [Input "12951"; Submit]; reflexivity | reflexivity].
Defined.




(** One timer event leaves the selection and the search cells alone. *)
Lemma timer_step_frame m e m' :
  timer_event e = true -> step m e = Some m' ->
  selectedTrain (ui (world m')) = selectedTrain (ui (world m)) /\
  error (ui (world m')) = error (ui (world m)) /\
  loading (ui (world m')) = loading (ui (world m)) /\
  searchQuery (ui (world m')) = searchQuery (ui (world m)).
Proof.
  unfold step. destruct (cards (ui (world m))); [|discriminate].
  destruct e as [|reply now|card|q| |reply]; try discriminate; intros _; cbn [handle].
  - intros [= <-]. repeat split.
  - destruct (polls m); [discriminate|]. intros [= <-]. cbn [world].
    apply poll_frame.
Qed.

(** A run of timer events leaves the selection and the search cells alone. *)
Lemma timer_run_frame events :
  forall m m',
    forallb timer_event events = true ->
    run m events = Some m' ->
    selectedTrain (ui (world m')) = selectedTrain (ui (world m)) /\
    error (ui (world m')) = error (ui (world m)) /\
    loading (ui (world m')) = loading (ui (world m)) /\
    searchQuery (ui (world m')) = searchQuery (ui (world m)).
Proof.
  induction events as [|e events IH]; intros m m' Hall; cbn.
  - intros [= <-]. repeat split.
  - cbn in Hall. apply andb_true_iff in Hall. destruct Hall as [He Hall].
    destruct (step m e) as [m1|] eqn:Hstep; [|discriminate].
    intros Hrun.
    destruct (timer_step_frame m e m1 He Hstep) as (Hs1 & He1 & Hl1 & Hq1).
    destruct (IH m1 m' Hall Hrun) as (Hs & Herr & Hl & Hq).
    repeat split; congruence.
Qed.



(** ** A poll reply and a search reply that race *)

(** X11: the reply to the timer's poll and the reply to a search can be
    applied in either order with the same result: the timer's handler
    writes the entities and the refresh time, the search continuation the
    selection, the error and the loading flag.  A [fetchAllTrains] whose
    closure held a selection would not commute with the search: whichever
    came last would decide the selection. *)
Theorem poll_and_search_replies_commute :
  (forall fleet_reply now search_reply w,
     exec (poll fleet_reply now) (exec (searchTrains_settle search_reply) w) =
     exec (searchTrains_settle search_reply) (exec (poll fleet_reply now) w)) /\
  (let w := showing [t5; t9] (Some t5) in
   selectedTrain (ui (exec (fetchAllTrains (Some t5) (fleet [t5; t9]) 6000%Z)
                           (exec (searchTrains_settle (found [t9])) w))) = Some t5 /\
   selectedTrain (ui (exec (searchTrains_settle (found [t9]))
                           (exec (fetchAllTrains (Some t5) (fleet [t5; t9]) 6000%Z) w))) = Some t9).
Proof.
  split.
  - intros fleet_reply now search_reply w.
    destruct search_reply as [|[[] [[|[[|first rest]|]]|]]];
      destruct fleet_reply as [|[[] [[|v]|]]]; reflexivity.
  - split; reflexivity.
Qed.

(** ** The route list *)

Lemma greater_spec a b : greater a b = true <-> (b < a)%Q.
Proof.
  unfold greater. rewrite negb_true_iff. split.
  - intros H. apply Qnot_le_lt. intros Hle. apply Qle_bool_iff in Hle. congruence.
  - intros H. destruct (Qle_bool a b) eqn:Hle; [|reflexivity].
    apply Qle_bool_iff in Hle. now apply Qlt_not_le in H.
Qed.

Lemma greater_false a b : greater a b = false <-> (a <= b)%Q.
Proof.
  unfold greater. rewrite negb_false_iff. apply Qle_bool_iff.
Qed.

(** X12: the look of a stop in the route list agrees with the lines
    printed on it.  A stop looks like the last station exactly when it
    carries the "Last Station" line, and like the next station exactly
    when it carries the "Next Station" line alone; a stop named as both
    looks like the last station.  Any other stop looks passed exactly when
    its distance is below the distance covered, and plain otherwise. *)
Theorem stop_look_agrees_with_its_labels :
  forall train stop,
    (stop_class train stop = "bg-green-50 border-l-4 border-green-500" <->
       last_label train stop = true) /\
    (stop_class train stop = "bg-blue-50 border-l-4 border-blue-500" <->
       last_label train stop = false /\ next_label train stop = true) /\
    (stop_class train stop = "bg-gray-50" <->
       last_label train stop = false /\ next_label train stop = false /\
       (distance stop < distanceCovered train)%Q) /\
    (stop_class train stop = "bg-white border border-gray-200" <->
       last_label train stop = false /\ next_label train stop = false /\
       (distanceCovered train <= distance stop)%Q).
Proof.
  intros train stop. unfold stop_class, last_label, next_label.
  destruct (station stop =? lastStation train).
  { split; [|split; [|split]]; split; intros H;
      try discriminate H; try reflexivity; now destruct H. }
  destruct (station stop =? nextStation train).
  { split; [|split; [|split]]; split; intros H;
      try discriminate H; try (split; reflexivity);
      now destruct H as (_ & H & _). }
  destruct (greater (distanceCovered train) (distance stop)) eqn:Hgt.
  - apply greater_spec in Hgt.
    split; [|split; [|split]]; split; intros H; try discriminate H.
    + now destruct H.
    + now split.
    + reflexivity.
    + destruct H as (_ & _ & H). now apply Qlt_not_le in Hgt.
  - apply greater_false in Hgt.
    split; [|split; [|split]]; split; intros H; try discriminate H.
    + now destruct H.
    + destruct H as (_ & _ & H). now apply Qlt_not_le in H.
    + now split.
    + reflexivity.
Qed.

(** A train between Surat and Vadodara, 300 km into its journey: Surat
    carries the last-station look, and a stop at 120 km looks passed. *)
Lemma stop_look_witness :
  stop_class seen7 {| station := "Surat"; lat := 21; lon := 72;
                      time := "05:10"; distance := 263 |}
    = "bg-green-50 border-l-4 border-green-500" /\
  stop_class seen7 {| station := "Borivali"; lat := 19; lon := 72;
                      time := "03:20"; distance := 120 |}
    = "bg-gray-50".
Proof.
  split.
  - exact (proj2 (proj1 (stop_look_agrees_with_its_labels seen7
             {| station := "Surat"; lat := 21; lon := 72;
                time := "05:10"; distance := 263 |})) eq_refl).
  - exact (proj2 (proj1 (proj2 (proj2 (stop_look_agrees_with_its_labels seen7
             {| station := "Borivali"; lat := 19; lon := 72;
                time := "03:20"; distance := 120 |}))))
             (conj eq_refl (conj eq_refl eq_refl))).
Defined.

(** ** The notices under the listing *)

(** X13: the two notices under the listing are never shown together.  On
    a page driven by the timer alone the loading notice never shows, and
    "No trains available" shows exactly when the entities are the empty
    array: also before the first reply has come, while the first request
    is still in flight. *)
Theorem notices_on_a_timer_driven_page :
  (forall s, empty_notice s && loading_notice s = false) /\
  (forall events m,
     forallb timer_event events = true ->
     run mounted events = Some m ->
     loading_notice (ui (world m)) = false /\
     (empty_notice (ui (world m)) = true <-> allTrains (ui (world m)) = Js.Array [])) /\
  (empty_notice (ui (world mounted)) = true /\ polls mounted = 1%nat).
Proof.
  split; [|split].
  - intros s. unfold empty_notice, loading_notice.
    destruct (allTrains s); try reflexivity.
    destruct (loading s); cbn; [now rewrite andb_false_r | apply andb_false_r].
  - intros events m Hall Hrun.
    destruct (timer_run_frame events mounted m Hall Hrun) as (_ & _ & Hload & _).
    cbn in Hload. unfold loading_notice, empty_notice. rewrite Hload.
    split; [reflexivity|].
    destruct (allTrains (ui (world m))) as [| | | | | |items];
      try (split; intros H; discriminate H).
    destruct items as [|t items]; cbn; split; intros H;
      try reflexivity; discriminate H.
  - split; reflexivity.
Qed.

(** The first reply is an empty listing, the second lists two trains. *)
Lemma notices_witness :
  exists m1 m2,
    run mounted [FleetReply (fleet []) 1000%Z] = Some m1 /\
    run m1 [Tick; FleetReply (fleet [t1; t3]) 6000%Z] = Some m2 /\
    empty_notice (ui (world m1)) = true /\
    loading_notice (ui (world m2)) = false.
Proof.
  pose proof (proj1 (proj2 notices_on_a_timer_driven_page)) as H.
  do 2 eexists. split; [reflexivity|]. split; [reflexivity|]. split.
  - apply (H [FleetReply (fleet []) 1000%Z] _ eq_refl eq_refl). reflexivity.
  - apply (H [FleetReply (fleet []) 1000%Z; Tick; FleetReply (fleet [t1; t3]) 6000%Z]
             _ eq_refl eq_refl).
Defined.
